(** * command-cert-manager-issuer: the process bootstrap ([main.go]) and the
      CertificateRequest life cycle

    The first part embeds [main.go]: the flag variables and their defaults,
    the values built from them, and [main] itself, written in a small
    monad that keeps the chronological log of calls into the libraries and
    stops at [os.Exit].  The results of the library calls (namespace
    discovery, config client, manager, controller registration, health
    checks, manager run) are inputs of the model, gathered in [World].
    [main cl w] is the function from line 90 on, for a command line [cl]
    that [flag.Parse] accepted; [process] is the whole of it, [flag.Parse]
    of line 88 included, which can end the process by itself.

    The second part models one reconcile pass over a CertificateRequest; the
    controllers package is not part of the sources at hand, so that part
    follows the written design. *)

From Stdlib Require Import String List ZArith Bool Arith Lia.
Import ListNotations.
Open Scope string_scope.

(* ===================================================================== *)
(** ** Go errors *)

(** A Go [error] value: the sentinel [util.ErrNotInCluster], a plain error,
    or an error wrapping another one. *)
Inductive error : Type :=
| ErrNotInCluster
| errors_New (text : string)
| fmt_Errorf (text : string) (wrapped : error).

Fixpoint error_eqb (a b : error) : bool :=
  match a, b with
  | ErrNotInCluster, ErrNotInCluster => true
  | errors_New s, errors_New t => String.eqb s t
  | fmt_Errorf s x, fmt_Errorf t y => String.eqb s t && error_eqb x y
  | _, _ => false
  end.

(** [errors.Is]: the error or one of the errors it wraps is the target. *)
Fixpoint errors_Is (err target : error) : bool :=
  error_eqb err target ||
  match err with
  | fmt_Errorf _ wrapped => errors_Is wrapped target
  | _ => false
  end.

(* ===================================================================== *)
(** ** Command line and flag variables *)

(** What the command line gives for each flag [main] registers; [None] is
    a flag that does not occur on the command line.  This is a command
    line [flag.Parse] accepts; the others are in [Invocation]. *)
Record CommandLine : Type := {
  arg_metrics_bind_address : option string;
  arg_health_probe_bind_address : option string;
  arg_leader_elect : option bool;
  arg_cluster_resource_namespace : option string;
  arg_version : option bool;
  arg_disable_approved_check : option bool;
  arg_secret_access_granted_at_cluster_level : option bool
}.

(** The local variables of [main] bound to the flags. *)
Record Flags : Type := {
  metricsAddr : string;
  enableLeaderElection : bool;
  probeAddr : string;
  clusterResourceNamespace : string;
  printVersion : bool;
  disableApprovedCheck : bool;
  secretAccessGrantedAtClusterLevel : bool
}.

(** [flag.StringVar] / [flag.BoolVar] followed by [flag.Parse]: the variable
    holds the value given on the command line, else the registered
    default [value]. *)
Definition flag_StringVar (given : option string) (value : string) : string :=
  match given with Some v => v | None => value end.

Definition flag_BoolVar (given : option bool) (value : bool) : bool :=
  match given with Some v => v | None => value end.

Definition flag_Parse (cl : CommandLine) : Flags :=
  {| metricsAddr := flag_StringVar (arg_metrics_bind_address cl) ":8080";
     probeAddr := flag_StringVar (arg_health_probe_bind_address cl) ":8081";
     enableLeaderElection := flag_BoolVar (arg_leader_elect cl) false;
     clusterResourceNamespace :=
       flag_StringVar (arg_cluster_resource_namespace cl) "";
     printVersion := flag_BoolVar (arg_version cl) false;
     disableApprovedCheck := flag_BoolVar (arg_disable_approved_check cl) false;
     secretAccessGrantedAtClusterLevel :=
       flag_BoolVar (arg_secret_access_granted_at_cluster_level cl) false |}.

(** The command line without any flag. *)
Definition no_flags : CommandLine :=
  {| arg_metrics_bind_address := None;
     arg_health_probe_bind_address := None;
     arg_leader_elect := None;
     arg_cluster_resource_namespace := None;
     arg_version := None;
     arg_disable_approved_check := None;
     arg_secret_access_granted_at_cluster_level := None |}.

(* ===================================================================== *)
(** ** Values of the libraries that [main] passes along *)

(** Handles that [main] only receives and hands on. *)
Inductive RestConfig : Type := restConfig (id : nat).
Inductive client_Client : Type := client (id : nat).

(** [util.ConfigClient] is an interface: [None] is its zero value [nil]. *)
Definition util_ConfigClient : Type := option nat.

(** A [runtime.Scheme]: the API groups added to it, latest first. *)
Definition runtime_Scheme : Type := list string.
Definition runtime_NewScheme : runtime_Scheme := [].
Definition AddToScheme (group : string) (s : runtime_Scheme) : runtime_Scheme :=
  group :: s.

(** The package variable [scheme] after [init]. *)
Definition scheme : runtime_Scheme :=
  AddToScheme "cmapi"
    (AddToScheme "commandissuerv1alpha1"
       (AddToScheme "clientgoscheme" runtime_NewScheme)).

(** Functions of the signer package and the clock, known by name only. *)
Inductive signer_HealthCheckerBuilder : Type := healthCheckerBuilder (name : string).
Inductive signer_SignerBuilder : Type := signerBuilder (name : string).
Inductive clock_Clock : Type := RealClock | FakeClock (now : Z).

Definition signer_CommandHealthCheckerFromIssuerAndSecretData
  : signer_HealthCheckerBuilder :=
  healthCheckerBuilder "CommandHealthCheckerFromIssuerAndSecretData".
Definition signer_CommandSignerFromIssuerAndSecretData : signer_SignerBuilder :=
  signerBuilder "CommandSignerFromIssuerAndSecretData".

Module metricsserver.
Record Options : Type := { BindAddress : string }.
End metricsserver.

Module webhookserver.
Record Options : Type := { Port : Z }.
Inductive Server : Type := NewServer (o : Options).
End webhookserver.

Module ctrl.
Record Options : Type := {
  Scheme : runtime_Scheme;
  Metrics : metricsserver.Options;
  WebhookServer : webhookserver.Server;
  HealthProbeBindAddress : string;
  LeaderElection : bool;
  LeaderElectionID : string
}.

(** The manager as [main] reads it: [GetClient] and [GetScheme]. *)
Record Manager : Type := { GetClient : client_Client; GetScheme : runtime_Scheme }.
End ctrl.

Module IssuerReconciler.
Record t : Type := {
  Kind : string;
  Client : client_Client;
  ConfigClient : util_ConfigClient;
  Scheme : runtime_Scheme;
  ClusterResourceNamespace : string;
  SecretAccessGrantedAtClusterLevel : bool;
  HealthCheckerBuilder : signer_HealthCheckerBuilder
}.
End IssuerReconciler.

Module CertificateRequestReconciler.
Record t : Type := {
  Client : client_Client;
  Scheme : runtime_Scheme;
  ConfigClient : util_ConfigClient;
  ClusterResourceNamespace : string;
  SignerBuilder : signer_SignerBuilder;
  CheckApprovedCondition : bool;
  SecretAccessGrantedAtClusterLevel : bool;
  Clock : clock_Clock
}.
End CertificateRequestReconciler.

Module healthz.
Record Request : Type := { URLPath : string }.

(** A health check: [nil] ([None]) is a passing check. *)
Definition Checker : Type := Request -> option error.

(** Modelled from the spec: [healthz.Ping] belongs to controller-runtime,
    not to the sources at hand; the design names the two probes static
    "ping" checks, that is a check that looks at nothing and passes. *)
Definition Ping : Checker := fun _ => None.
End healthz.

(* ===================================================================== *)
(** ** The outside world and the log of calls *)

(** The result of every library call [main] makes.  A Go call returning
    [(value, err)] is a pair whose second component is [None] for [nil]. *)
Record World : Type := {
  util_GetInClusterNamespace : string * option error;
  util_NewConfigClient : util_ConfigClient * option error;
  (** [ctrl.GetConfigOrDie]: [None] when it ends the process itself. *)
  ctrl_GetConfigOrDie : option RestConfig;
  ctrl_NewManager : RestConfig -> ctrl.Options -> ctrl.Manager * option error;
  Issuer_SetupWithManager : IssuerReconciler.t -> ctrl.Manager -> option error;
  CertificateRequest_SetupWithManager :
    CertificateRequestReconciler.t -> ctrl.Manager -> option error;
  mgr_AddHealthzCheck : ctrl.Manager -> string -> healthz.Checker -> option error;
  mgr_AddReadyzCheck : ctrl.Manager -> string -> healthz.Checker -> option error;
  mgr_Start : ctrl.Manager -> option error
}.

(** What the process does that can be seen from outside, in order. *)
Inductive Event : Type :=
| EvSetLogger
| EvLogError (err : error) (msg : string) (keysAndValues : list string)
| EvLogInfo (msg : string)
| EvGetInClusterNamespace (ns : string) (err : option error)
| EvNewConfigClient (c : util_ConfigClient) (err : option error)
| EvGetConfigOrDie (cfg : option RestConfig)
| EvNewManager (cfg : RestConfig) (opts : ctrl.Options) (err : option error)
| EvIssuerSetup (r : IssuerReconciler.t) (err : option error)
| EvCertificateRequestSetup (r : CertificateRequestReconciler.t) (err : option error)
| EvAddHealthzCheck (name : string) (check : healthz.Checker) (err : option error)
| EvAddReadyzCheck (name : string) (check : healthz.Checker) (err : option error)
| EvStart (err : option error).

(** A step of the process either goes on with a value or has left through
    [os.Exit]. *)
Inductive Outcome (A : Type) : Type :=
| Returned (a : A)
| Exited (code : Z).
Arguments Returned {A} a.
Arguments Exited {A} code.

Definition Proc (A : Type) : Type := list Event -> list Event * Outcome A.

Definition ret {A : Type} (a : A) : Proc A := fun log => (log, Returned a).

Definition bind {A B : Type} (m : Proc A) (k : A -> Proc B) : Proc B :=
  fun log =>
    match m log with
    | (log', Returned a) => k a log'
    | (log', Exited code) => (log', Exited code)
    end.

Definition emit (e : Event) : Proc unit := fun log => ((log ++ [e])%list, Returned tt).

Definition os_Exit {A : Type} (code : Z) : Proc A := fun log => (log, Exited code).

Declare Scope proc_scope.
Delimit Scope proc_scope with proc.
Notation "x <- m ;; k" := (bind m (fun x => k))
  (at level 61, m at next level, right associativity) : proc_scope.
Notation "m ;; k" := (bind m (fun _ => k))
  (at level 61, right associativity) : proc_scope.
Open Scope proc_scope.

(** [setupLog.Error] and [setupLog.Info]. *)
Definition setupLog_Error (err : error) (msg : string) (kv : list string) : Proc unit :=
  emit (EvLogError err msg kv).
Definition setupLog_Info (msg : string) : Proc unit := emit (EvLogInfo msg).

(** [if err != nil { log; os.Exit(1) }] *)
Definition exit_on (err : option error) (msg : string) (kv : list string) : Proc unit :=
  match err with
  | Some e => setupLog_Error e msg kv ;; os_Exit 1
  | None => ret tt
  end.

(** A finished process: its log and its exit code. *)
Record Run : Type := { events : list Event; exitCode : Z }.

(** Returning from [main] ends the process with code 0. *)
Definition run (p : Proc unit) : Run :=
  match p [] with
  | (log, Returned _) => {| events := log; exitCode := 0 |}
  | (log, Exited code) => {| events := log; exitCode := code |}
  end.

(* ===================================================================== *)
(** ** [main] *)

(** Lines 92-103: the namespace of cluster-scoped resources. *)
Definition resolveNamespace (f : Flags) (w : World) : Proc string :=
  if String.eqb (clusterResourceNamespace f) "" then
    let '(ns, err) := util_GetInClusterNamespace w in
    emit (EvGetInClusterNamespace ns err) ;;
    match err with
    | Some e =>
        (if errors_Is e ErrNotInCluster
         then setupLog_Error e "please supply --cluster-resource-namespace" []
         else setupLog_Error e "unexpected error while getting in-cluster Namespace" []) ;;
        os_Exit 1
    | None => ret ns
    end
  else ret (clusterResourceNamespace f).

Definition managerOptions (f : Flags) : ctrl.Options :=
  let mtr := {| metricsserver.BindAddress := metricsAddr f |} in
  let hookServer := webhookserver.NewServer {| webhookserver.Port := 9443 |} in
  {| ctrl.Scheme := scheme;
     ctrl.Metrics := mtr;
     ctrl.WebhookServer := hookServer;
     ctrl.HealthProbeBindAddress := probeAddr f;
     ctrl.LeaderElection := enableLeaderElection f;
     ctrl.LeaderElectionID := "b68cef20.keyfactor.com" |}.

Definition issuerReconciler (kind : string) (f : Flags) (ns : string)
    (configClient : util_ConfigClient) (mgr : ctrl.Manager) : IssuerReconciler.t :=
  {| IssuerReconciler.Kind := kind;
     IssuerReconciler.Client := ctrl.GetClient mgr;
     IssuerReconciler.ConfigClient := configClient;
     IssuerReconciler.Scheme := ctrl.GetScheme mgr;
     IssuerReconciler.ClusterResourceNamespace := ns;
     IssuerReconciler.SecretAccessGrantedAtClusterLevel :=
       secretAccessGrantedAtClusterLevel f;
     IssuerReconciler.HealthCheckerBuilder :=
       signer_CommandHealthCheckerFromIssuerAndSecretData |}.

Definition certificateRequestReconciler (f : Flags) (ns : string)
    (configClient : util_ConfigClient) (mgr : ctrl.Manager)
  : CertificateRequestReconciler.t :=
  {| CertificateRequestReconciler.Client := ctrl.GetClient mgr;
     CertificateRequestReconciler.Scheme := ctrl.GetScheme mgr;
     CertificateRequestReconciler.ConfigClient := configClient;
     CertificateRequestReconciler.ClusterResourceNamespace := ns;
     CertificateRequestReconciler.SignerBuilder :=
       signer_CommandSignerFromIssuerAndSecretData;
     CertificateRequestReconciler.CheckApprovedCondition :=
       negb (disableApprovedCheck f);
     CertificateRequestReconciler.SecretAccessGrantedAtClusterLevel :=
       secretAccessGrantedAtClusterLevel f;
     CertificateRequestReconciler.Clock := RealClock |}.

Definition main_proc (cl : CommandLine) (w : World) : Proc unit :=
  let f := flag_Parse cl in
  emit EvSetLogger ;;
  ns <- resolveNamespace f w ;;
  (if secretAccessGrantedAtClusterLevel f
   then setupLog_Info "expecting secret access at cluster level"
   else setupLog_Info ("expecting secret access at namespace level (" ++ ns ++ ")")) ;;
  let '(configClient, err) := util_NewConfigClient w in
  emit (EvNewConfigClient configClient err) ;;
  match err with
  | Some e => setupLog_Error e "error creating config client" []
  | None => ret tt
  end ;;
  emit (EvGetConfigOrDie (ctrl_GetConfigOrDie w)) ;;
  cfg <- match ctrl_GetConfigOrDie w with
         | Some cfg => ret cfg
         | None => os_Exit 1
         end ;;
  let '(mgr, err) := ctrl_NewManager w cfg (managerOptions f) in
  emit (EvNewManager cfg (managerOptions f) err) ;;
  exit_on err "unable to start manager" [] ;;
  let issuer := issuerReconciler "Issuer" f ns configClient mgr in
  let err := Issuer_SetupWithManager w issuer mgr in
  emit (EvIssuerSetup issuer err) ;;
  exit_on err "unable to create controller" ["controller"; "Issuer"] ;;
  let clusterIssuer := issuerReconciler "ClusterIssuer" f ns configClient mgr in
  let err := Issuer_SetupWithManager w clusterIssuer mgr in
  emit (EvIssuerSetup clusterIssuer err) ;;
  exit_on err "unable to create controller" ["controller"; "ClusterIssuer"] ;;
  let certificateRequest := certificateRequestReconciler f ns configClient mgr in
  let err := CertificateRequest_SetupWithManager w certificateRequest mgr in
  emit (EvCertificateRequestSetup certificateRequest err) ;;
  exit_on err "unable to create controller" ["controller"; "CertificateRequest"] ;;
  let err := mgr_AddHealthzCheck w mgr "healthz" healthz.Ping in
  emit (EvAddHealthzCheck "healthz" healthz.Ping err) ;;
  exit_on err "unable to set up health check" [] ;;
  let err := mgr_AddReadyzCheck w mgr "readyz" healthz.Ping in
  emit (EvAddReadyzCheck "readyz" healthz.Ping err) ;;
  exit_on err "unable to set up ready check" [] ;;
  setupLog_Info "starting manager" ;;
  let err := mgr_Start w mgr in
  emit (EvStart err) ;;
  exit_on err "problem running manager" [].

Definition main (cl : CommandLine) (w : World) : Run := run (main_proc cl w).

(** What [flag.Parse] (line 88) makes of the arguments of the process.  The
    flag set is [flag.CommandLine], whose error handling is
    [flag.ExitOnError]: on [-h] or [-help], which no one registers, it
    prints the usage and ends the process with code 0; on arguments it
    rejects (a flag that is not defined, a missing or malformed value) it
    prints the reason and ends the process with code 2; otherwise it
    returns with the flag variables set. *)
Inductive Invocation : Type :=
| Accepted (cl : CommandLine)
| HelpRequested
| Rejected (reason : string).

(** [main] from its first line: [flag.Parse] ends the process before
    anything is logged or called, or the rest of [main] runs. *)
Definition process (inv : Invocation) (w : World) : Run :=
  match inv with
  | Accepted cl => main cl w
  | HelpRequested => {| events := []; exitCode := 0 |}
  | Rejected _ => {| events := []; exitCode := 2 |}
  end.

(* ===================================================================== *)
(** ** Sample inputs *)

Definition sample_manager : ctrl.Manager :=
  {| ctrl.GetClient := client 7; ctrl.GetScheme := scheme |}.

(** A cluster in which every call succeeds and the manager stops cleanly. *)
Definition healthy_world : World :=
  {| util_GetInClusterNamespace := ("command-issuer-system", None);
     util_NewConfigClient := (Some 1%nat, None);
     ctrl_GetConfigOrDie := Some (restConfig 1);
     ctrl_NewManager := fun _ _ => (sample_manager, None);
     Issuer_SetupWithManager := fun _ _ => None;
     CertificateRequest_SetupWithManager := fun _ _ => None;
     mgr_AddHealthzCheck := fun _ _ _ => None;
     mgr_AddReadyzCheck := fun _ _ _ => None;
     mgr_Start := fun _ => None |}.

(** The same with one call answering differently. *)
Definition with_GetInClusterNamespace (r : string * option error) (w : World) : World :=
  {| util_GetInClusterNamespace := r;
     util_NewConfigClient := util_NewConfigClient w;
     ctrl_GetConfigOrDie := ctrl_GetConfigOrDie w;
     ctrl_NewManager := ctrl_NewManager w;
     Issuer_SetupWithManager := Issuer_SetupWithManager w;
     CertificateRequest_SetupWithManager := CertificateRequest_SetupWithManager w;
     mgr_AddHealthzCheck := mgr_AddHealthzCheck w;
     mgr_AddReadyzCheck := mgr_AddReadyzCheck w;
     mgr_Start := mgr_Start w |}.

Definition with_NewConfigClient (r : util_ConfigClient * option error) (w : World) : World :=
  {| util_GetInClusterNamespace := util_GetInClusterNamespace w;
     util_NewConfigClient := r;
     ctrl_GetConfigOrDie := ctrl_GetConfigOrDie w;
     ctrl_NewManager := ctrl_NewManager w;
     Issuer_SetupWithManager := Issuer_SetupWithManager w;
     CertificateRequest_SetupWithManager := CertificateRequest_SetupWithManager w;
     mgr_AddHealthzCheck := mgr_AddHealthzCheck w;
     mgr_AddReadyzCheck := mgr_AddReadyzCheck w;
     mgr_Start := mgr_Start w |}.

(** A process started outside a cluster. *)
Definition outside_cluster_world : World :=
  with_GetInClusterNamespace ("", Some ErrNotInCluster) healthy_world.

(** The command line [--version]. *)
Definition version_flag : CommandLine :=
  {| arg_metrics_bind_address := None;
     arg_health_probe_bind_address := None;
     arg_leader_elect := None;
     arg_cluster_resource_namespace := None;
     arg_version := Some true;
     arg_disable_approved_check := None;
     arg_secret_access_granted_at_cluster_level := None |}.

Definition with_version (v : option bool) (cl : CommandLine) : CommandLine :=
  {| arg_metrics_bind_address := arg_metrics_bind_address cl;
     arg_health_probe_bind_address := arg_health_probe_bind_address cl;
     arg_leader_elect := arg_leader_elect cl;
     arg_cluster_resource_namespace := arg_cluster_resource_namespace cl;
     arg_version := v;
     arg_disable_approved_check := arg_disable_approved_check cl;
     arg_secret_access_granted_at_cluster_level :=
       arg_secret_access_granted_at_cluster_level cl |}.

(** The namespace the reconcilers are given: the flag, or the discovered
    namespace when the flag is empty. *)
Definition resolvedNamespace (cl : CommandLine) (w : World) : string :=
  if String.eqb (clusterResourceNamespace (flag_Parse cl)) ""
  then fst (util_GetInClusterNamespace w)
  else clusterResourceNamespace (flag_Parse cl).

(** The secret-access scope an event hands to a reconciler, if it
    registers one: the namespace and the cluster-level switch. *)
Definition scope_of (ev : Event) : option (string * bool) :=
  match ev with
  | EvIssuerSetup r _ =>
      Some (IssuerReconciler.ClusterResourceNamespace r,
            IssuerReconciler.SecretAccessGrantedAtClusterLevel r)
  | EvCertificateRequestSetup r _ =>
      Some (CertificateRequestReconciler.ClusterResourceNamespace r,
            CertificateRequestReconciler.SecretAccessGrantedAtClusterLevel r)
  | _ => None
  end.


(** The kinds of the issuer reconcilers registered, in order. *)
Fixpoint issuerKinds (log : list Event) : list string :=
  match log with
  | [] => []
  | EvIssuerSetup r _ :: rest => IssuerReconciler.Kind r :: issuerKinds rest
  | _ :: rest => issuerKinds rest
  end.

(** The log up to the first health check registration. *)
Fixpoint before_healthz (log : list Event) : list Event :=
  match log with
  | [] => []
  | EvAddHealthzCheck _ _ _ :: _ => []
  | ev :: rest => ev :: before_healthz rest
  end.


(** The steps of [main] at which a call can fail. *)
Inductive Stage : Type :=
| AtNamespace | AtNewManager | AtIssuer | AtClusterIssuer
| AtCertificateRequest | AtHealthz | AtReadyz | AtStart.

Definition Stage_eqb (a b : Stage) : bool :=
  match a, b with
  | AtNamespace, AtNamespace | AtNewManager, AtNewManager
  | AtIssuer, AtIssuer | AtClusterIssuer, AtClusterIssuer
  | AtCertificateRequest, AtCertificateRequest
  | AtHealthz, AtHealthz | AtReadyz, AtReadyz | AtStart, AtStart => true
  | _, _ => false
  end.

Definition failing (at_ s : Stage) : option error :=
  if Stage_eqb at_ s then Some (errors_New "refused") else None.

(** A cluster in which exactly the call of stage [s] fails. *)
Definition world_failing_at (s : Stage) : World :=
  {| util_GetInClusterNamespace := ("command-issuer-system", failing AtNamespace s);
     util_NewConfigClient := (Some 1%nat, None);
     ctrl_GetConfigOrDie := Some (restConfig 1);
     ctrl_NewManager := fun _ _ => (sample_manager, failing AtNewManager s);
     Issuer_SetupWithManager := fun r _ =>
       if String.eqb (IssuerReconciler.Kind r) "Issuer"
       then failing AtIssuer s else failing AtClusterIssuer s;
     CertificateRequest_SetupWithManager := fun _ _ => failing AtCertificateRequest s;
     mgr_AddHealthzCheck := fun _ _ _ => failing AtHealthz s;
     mgr_AddReadyzCheck := fun _ _ _ => failing AtReadyz s;
     mgr_Start := fun _ => failing AtStart s |}.

(* ===================================================================== *)
(** ** One reconcile pass over a CertificateRequest *)

Module CertificateRequest.

(** Modelled from the spec: the condition types of the API package, which
    is not among the sources: a tri-state status and the reasons the design
    names for [Ready]. *)
Inductive ConditionStatus : Type := ConditionTrue | ConditionFalse | ConditionUnknown.

Inductive Reason : Type :=
| Pending | Issued | Denied | Failed | IssuerNotReady | ConfigError.

Record Condition : Type := { status : ConditionStatus; reason : Reason }.

(** Modelled from the spec: the status of a CertificateRequest, declared
    in the API package that is not among the sources: the [Ready]
    condition (when set), [status.certificate] and [status.ca]. *)
Record Status : Type := {
  Ready : option Condition;
  certificate : option string;
  ca : option string
}.

(** Modelled from the spec: the condition set by the external approver,
    which the reconciler (not among the sources) only reads. *)
Inductive Approval : Type := NoDecision | Approved | ApprovalDenied.

(** Modelled from the spec: what the Signer capability (package signer,
    not among the sources) answers to a CSR: a certificate chain and CA, a
    transient error or a permanent rejection. *)
Inductive SignResult : Type :=
| Signed (chain authority : string)
| TransientError
| PermanentError.

(** Modelled from the spec: what one pass reads from outside the
    resource: the approver's condition, whether the referenced issuer
    exists with [Ready=True], the resolved secret ([None]: not found or
    malformed), the answer of the Signer to this request's CSR should it
    be asked, and whether the status write meets a storage conflict. *)
Record Reads : Type := {
  approval : Approval;
  issuerReady : bool;
  secretData : option string;
  sign : SignResult;
  writeConflict : bool
}.

(** Modelled from the spec: the result of a pass of the reconciler (not
    among the sources): the status afterwards, the requeue decision, the
    Signer's answer when it was invoked, and whether the status was
    written. *)
Record Pass : Type := {
  after : Status;
  requeue : bool;
  signerCalled : option SignResult;
  wrote : bool
}.

(** Modelled from the spec: the terminal check of the reconciler (not among
    the sources): [Issued] and [Denied] make a pass a no-op, and the design
    marks [Failed] terminal with no further requeue. *)
Definition terminal (st : Status) : bool :=
  match Ready st with
  | Some c =>
      match reason c with
      | Issued | Denied | Failed => true
      | _ => false
      end
  | None => false
  end.

(** Modelled from the spec: the condition helpers (not among the sources):
    [Ready] is replaced in place; issuance also fills [status.certificate]
    and [status.ca]. *)
Definition setReady (s : ConditionStatus) (r : Reason) (st : Status) : Status :=
  {| Ready := Some {| status := s; reason := r |};
     certificate := certificate st;
     ca := ca st |}.

Definition setIssued (chain authority : string) (st : Status) : Status :=
  {| Ready := Some {| status := ConditionTrue; reason := Issued |};
     certificate := Some chain;
     ca := Some authority |}.

(** Modelled from the spec: the status update at the end of a pass of the
    reconciler (not among the sources): a storage conflict leaves the
    resource as it was and the whole pass is retried. *)
Definition persist (rd : Reads) (st new : Status) (again : bool)
    (called : option SignResult) : Pass :=
  if writeConflict rd
  then {| after := st; requeue := true; signerCalled := called; wrote := false |}
  else {| after := new; requeue := again; signerCalled := called; wrote := true |}.

(** Modelled from the spec: [CertificateRequestReconciler.Reconcile]
    lives in the controllers package, which is not among the sources.
    The pass follows the numbered transitions of the design: terminal
    check (Issued, Denied, and Failed, which the design marks terminal),
    approval gate when [CheckApprovedCondition] is on, issuer readiness,
    secret resolution, then the Signer. *)
Definition reconcile (checkApprovedCondition : bool) (st : Status) (rd : Reads) : Pass :=
  if terminal st then
    {| after := st; requeue := false; signerCalled := None; wrote := false |}
  else
    match checkApprovedCondition, approval rd with
    | true, NoDecision =>
        {| after := st; requeue := false; signerCalled := None; wrote := false |}
    | true, ApprovalDenied =>
        persist rd st (setReady ConditionFalse Denied st) false None
    | _, _ =>
        if negb (issuerReady rd) then
          persist rd st (setReady ConditionFalse IssuerNotReady st) true None
        else
          match secretData rd with
          | None => persist rd st (setReady ConditionFalse ConfigError st) false None
          | Some _ =>
              match sign rd with
              | TransientError =>
                  persist rd st (setReady ConditionFalse Pending st) true
                    (Some TransientError)
              | PermanentError =>
                  persist rd st (setReady ConditionFalse Failed st) false
                    (Some PermanentError)
              | Signed chain authority =>
                  persist rd st (setIssued chain authority st) false
                    (Some (Signed chain authority))
              end
          end
    end.

(** Any number of passes, each starting from the status the previous one
    left. *)
Fixpoint reconciles (check : bool) (st : Status) (rds : list Reads) : list Pass :=
  match rds with
  | [] => []
  | rd :: rest =>
      let p := reconcile check st rd in
      p :: reconciles check (after p) rest
  end.

(** A pass in which the Signer succeeded and the certificate was written. *)
Definition issuedIn (p : Pass) : bool :=
  match signerCalled p with
  | Some (Signed _ _) => wrote p
  | _ => false
  end.

Definition issuances (ps : list Pass) : nat := length (filter issuedIn ps).

Definition isIssued (st : Status) : bool :=
  match Ready st with
  | Some {| status := ConditionTrue; reason := Issued |} => true
  | _ => false
  end.

(** The pass that touches nothing. *)
Definition untouched (st : Status) : Pass :=
  {| after := st; requeue := false; signerCalled := None; wrote := false |}.

(** A request nobody has looked at yet. *)
Definition fresh : Status := {| Ready := None; certificate := None; ca := None |}.

Definition reads_ok (conflict : bool) : Reads :=
  {| approval := Approved; issuerReady := true; secretData := Some "token";
     sign := Signed "leaf" "root"; writeConflict := conflict |}.

End CertificateRequest.

(* ===================================================================== *)
(** ** Reading a log *)

Definition with_namespace_flag (v : option string) (cl : CommandLine) : CommandLine :=
  {| arg_metrics_bind_address := arg_metrics_bind_address cl;
     arg_health_probe_bind_address := arg_health_probe_bind_address cl;
     arg_leader_elect := arg_leader_elect cl;
     arg_cluster_resource_namespace := v;
     arg_version := arg_version cl;
     arg_disable_approved_check := arg_disable_approved_check cl;
     arg_secret_access_granted_at_cluster_level :=
       arg_secret_access_granted_at_cluster_level cl |}.

(** The error returned by a call after which [main] gives up; the error of
    [util.NewConfigClient] is not one of them. *)
Definition failure_of (ev : Event) : option error :=
  match ev with
  | EvGetInClusterNamespace _ err => err
  | EvNewManager _ _ err => err
  | EvIssuerSetup _ err => err
  | EvCertificateRequestSetup _ err => err
  | EvAddHealthzCheck _ _ err => err
  | EvAddReadyzCheck _ _ err => err
  | EvStart err => err
  | _ => None
  end.


(** The library call an event records; log lines record none. *)
Definition call_name (ev : Event) : option string :=
  match ev with
  | EvSetLogger => Some "ctrl.SetLogger"
  | EvLogError _ _ _ => None
  | EvLogInfo _ => None
  | EvGetInClusterNamespace _ _ => Some "util.GetInClusterNamespace"
  | EvNewConfigClient _ _ => Some "util.NewConfigClient"
  | EvGetConfigOrDie _ => Some "ctrl.GetConfigOrDie"
  | EvNewManager _ _ _ => Some "ctrl.NewManager"
  | EvIssuerSetup r _ => Some ("SetupWithManager " ++ IssuerReconciler.Kind r)
  | EvCertificateRequestSetup _ _ => Some "SetupWithManager CertificateRequest"
  | EvAddHealthzCheck _ _ _ => Some "mgr.AddHealthzCheck"
  | EvAddReadyzCheck _ _ _ => Some "mgr.AddReadyzCheck"
  | EvStart _ => Some "mgr.Start"
  end.

Fixpoint calls (log : list Event) : list string :=
  match log with
  | [] => []
  | ev :: rest =>
      match call_name ev with
      | Some name => name :: calls rest
      | None => calls rest
      end
  end.

(** The calls of a complete start, in the order of [main.go]; the
    namespace discovery is there when the flag variable is empty. *)
Definition call_sequence (discover : bool) : list string :=
  ("ctrl.SetLogger" ::
   (if discover then ["util.GetInClusterNamespace"] else []) ++
   ["util.NewConfigClient"; "ctrl.GetConfigOrDie"; "ctrl.NewManager";
    "SetupWithManager Issuer"; "SetupWithManager ClusterIssuer";
    "SetupWithManager CertificateRequest";
    "mgr.AddHealthzCheck"; "mgr.AddReadyzCheck"; "mgr.Start"])%list.

(** The line [main] logs about the secret access scope (lines 105-109). *)
Definition scope_message (f : Flags) (ns : string) : string :=
  if secretAccessGrantedAtClusterLevel f
  then "expecting secret access at cluster level"
  else "expecting secret access at namespace level (" ++ ns ++ ")".

(** A cluster like [healthy_world] whose manager runs into an error. *)
Definition world_stopping_with (e : error) : World :=
  {| util_GetInClusterNamespace := util_GetInClusterNamespace healthy_world;
     util_NewConfigClient := util_NewConfigClient healthy_world;
     ctrl_GetConfigOrDie := ctrl_GetConfigOrDie healthy_world;
     ctrl_NewManager := ctrl_NewManager healthy_world;
     Issuer_SetupWithManager := Issuer_SetupWithManager healthy_world;
     CertificateRequest_SetupWithManager :=
       CertificateRequest_SetupWithManager healthy_world;
     mgr_AddHealthzCheck := mgr_AddHealthzCheck healthy_world;
     mgr_AddReadyzCheck := mgr_AddReadyzCheck healthy_world;
     mgr_Start := fun _ => Some e |}.

(* ===================================================================== *)
(** ** [init] *)

(** What a call of an [AddToScheme] function does to the scheme it is
    given: it returns, with the scheme afterwards and its error, or it
    panics (as the registration of a conflicting type does). *)
Inductive AddToSchemeResult : Type :=
| Added (s : runtime_Scheme) (err : option error)
| Panics (v : error).

(** The three [AddToScheme] functions [init] calls. *)
Record SchemeBuilders : Type := {
  clientgoscheme_AddToScheme : runtime_Scheme -> AddToSchemeResult;
  commandissuerv1alpha1_AddToScheme : runtime_Scheme -> AddToSchemeResult;
  cmapi_AddToScheme : runtime_Scheme -> AddToSchemeResult
}.

(** How package initialisation ends: with the package variable [scheme]
    filled, or in a panic before [main] runs. *)
Inductive InitResult : Type :=
| Initialised (s : runtime_Scheme)
| Panicked (e : error).

(** [utilruntime.Must(f(scheme))]: a panic of [f] goes through, a non-nil
    error is turned into a panic, and otherwise [init] goes on with the
    scheme as [f] left it. *)
Definition utilruntime_Must (r : AddToSchemeResult)
    (k : runtime_Scheme -> InitResult) : InitResult :=
  match r with
  | Panics v => Panicked v
  | Added _ (Some e) => Panicked e
  | Added s None => k s
  end.

(** [_ = f(scheme)]: a panic of [f] goes through, its error is dropped. *)
Definition discard_error (r : AddToSchemeResult)
    (k : runtime_Scheme -> InitResult) : InitResult :=
  match r with
  | Panics v => Panicked v
  | Added s _ => k s
  end.

(** Lines 54-61. *)
Definition init (b : SchemeBuilders) : InitResult :=
  utilruntime_Must (clientgoscheme_AddToScheme b runtime_NewScheme) (fun s1 =>
  utilruntime_Must (commandissuerv1alpha1_AddToScheme b s1) (fun s2 =>
  discard_error (cmapi_AddToScheme b s2) (fun s3 =>
  Initialised s3))).

(** How a call under [utilruntime.Must] makes [init] panic, if it does. *)
Definition must_failure (r : AddToSchemeResult) : option error :=
  match r with
  | Panics v => Some v
  | Added _ err => err
  end.

(** The scheme a call that returned has left. *)
Definition scheme_after (r : AddToSchemeResult) (before : runtime_Scheme)
  : runtime_Scheme :=
  match r with
  | Added s _ => s
  | Panics _ => before
  end.

(** Builders that register their group and never fail. *)
Definition registering_builders : SchemeBuilders :=
  {| clientgoscheme_AddToScheme := fun s => Added (AddToScheme "clientgoscheme" s) None;
     commandissuerv1alpha1_AddToScheme :=
       fun s => Added (AddToScheme "commandissuerv1alpha1" s) None;
     cmapi_AddToScheme := fun s => Added (AddToScheme "cmapi" s) None |}.

(** Builders of which only cert-manager's returns an error, leaving the
    scheme as it was. *)
Definition cmapi_failing_builders : SchemeBuilders :=
  {| clientgoscheme_AddToScheme := fun s => Added (AddToScheme "clientgoscheme" s) None;
     commandissuerv1alpha1_AddToScheme :=
       fun s => Added (AddToScheme "commandissuerv1alpha1" s) None;
     cmapi_AddToScheme :=
       fun s => Added s (Some (errors_New "cmapi: already registered")) |}.

(** Builders of which the first two both fail: client-go's returns an
    error, the command issuer's would panic. *)
Definition both_failing_builders : SchemeBuilders :=
  {| clientgoscheme_AddToScheme := fun s => Added s (Some (errors_New "client-go"));
     commandissuerv1alpha1_AddToScheme := fun _ => Panics (errors_New "command-issuer");
     cmapi_AddToScheme := fun s => Added (AddToScheme "cmapi" s) None |}.

(* ===================================================================== *)
(** ** Proof tools for runs of [main] *)

Ltac unfold_main :=
  unfold main, run, main_proc, resolveNamespace, exit_on,
         setupLog_Error, setupLog_Info, bind, emit, os_Exit, ret.

(** Case analysis on the next test [main] makes: a flag it branches on or
    the result of a library call. *)
Ltac next_branch :=
  match goal with
  | |- context [match ?x with _ => _ end] =>
      lazymatch x with
      | context [match _ with _ => _ end] => fail
      | _ => destruct x eqn:?
      end
  end.

(** All the ways [main cl w] can go, the flag variables kept abstract. *)
Ltac main_paths :=
  unfold_main;
  repeat (cbn [app events exitCode]; next_branch);
  cbn [app events exitCode].

(** Use a hypothesis [In ev log] on an explicit log. *)
Ltac in_log H :=
  cbn [In] in H;
  repeat (destruct H as [H | H]);
  try discriminate H; try contradiction;
  try (inversion H; subst; clear H).

(** The run of [main] reads the flag variables only. *)
Lemma main_flags (cl cl' : CommandLine) (w : World) :
  flag_Parse cl = flag_Parse cl' -> main cl w = main cl' w.
Proof.
  intros E. unfold main, main_proc. rewrite E. reflexivity.
Qed.

(** No statement of [main] reads [printVersion]. *)
Lemma main_ignores_printVersion (v : option bool) (cl : CommandLine) (w : World) :
  main (with_version v cl) w = main cl w.
Proof. reflexivity. Qed.

(* ===================================================================== *)
(** ** The version flag *)

(** C1: the claim is that [--version] prints the version and exits with
    code 0 before any setup.  The code registers the flag and never reads
    [printVersion]: started with [--version] outside a cluster, the process
    prints nothing, goes into namespace resolution and exits with code 1,
    and in any world it runs exactly as it does without the flag. *)
Theorem version_flag_goes_through_setup :
  printVersion (flag_Parse version_flag) = true /\
  main version_flag outside_cluster_world =
    {| events :=
         [EvSetLogger;
          EvGetInClusterNamespace "" (Some ErrNotInCluster);
          EvLogError ErrNotInCluster "please supply --cluster-resource-namespace" []];
       exitCode := 1 |} /\
  In (EvNewManager (restConfig 1) (managerOptions (flag_Parse version_flag)) None)
     (events (main version_flag healthy_world)) /\
  (forall w : World, main version_flag w = main no_flags w).
Proof.
  split; [reflexivity |].
  split; [reflexivity |].
  split; [cbn; tauto |].
  intros w. exact (main_ignores_printVersion (Some true) no_flags w).
Qed.

(* ===================================================================== *)
(** ** Namespace resolution *)

(** C3: with an empty [cluster-resource-namespace] the first library call
    is the in-cluster namespace discovery; when it returns an error the
    process logs it (asking for the flag when the error is
    [ErrNotInCluster]) and exits with code 1, and no manager has been
    constructed. *)
Theorem namespace_discovery_failure_exits :
  forall (cl : CommandLine) (w : World),
    clusterResourceNamespace (flag_Parse cl) = "" ->
    (exists rest : list Event,
        events (main cl w) =
          EvSetLogger ::
          EvGetInClusterNamespace (fst (util_GetInClusterNamespace w))
                                  (snd (util_GetInClusterNamespace w)) :: rest) /\
    (forall e : error,
        snd (util_GetInClusterNamespace w) = Some e ->
        main cl w =
          {| events :=
               [EvSetLogger;
                EvGetInClusterNamespace (fst (util_GetInClusterNamespace w)) (Some e);
                EvLogError e
                  (if errors_Is e ErrNotInCluster
                   then "please supply --cluster-resource-namespace"
                   else "unexpected error while getting in-cluster Namespace") []];
             exitCode := 1 |} /\
        forall cfg opts err, ~ In (EvNewManager cfg opts err) (events (main cl w))).
Proof.
  intros cl w Hflag. split.
  - unfold_main. revert Hflag. generalize (flag_Parse cl). intros f Hflag.
    rewrite Hflag.
    repeat (cbn [app events exitCode String.eqb fst snd]; next_branch);
      cbn [app events exitCode fst snd]; eexists; reflexivity.
  - intros e He.
    assert (Hrun : main cl w =
      {| events :=
           [EvSetLogger;
            EvGetInClusterNamespace (fst (util_GetInClusterNamespace w)) (Some e);
            EvLogError e
              (if errors_Is e ErrNotInCluster
               then "please supply --cluster-resource-namespace"
               else "unexpected error while getting in-cluster Namespace") []];
         exitCode := 1 |}).
    { unfold_main. rewrite Hflag.
      destruct (util_GetInClusterNamespace w) as [ns err].
      cbn [fst snd] in *. subst err.
      cbn [String.eqb app]. destruct (errors_Is e ErrNotInCluster); reflexivity. }
    split; [exact Hrun |].
    intros cfg opts err Hin. rewrite Hrun in Hin. in_log Hin.
Qed.

Lemma namespace_discovery_failure_exits_witness :
  clusterResourceNamespace (flag_Parse no_flags) = "" /\
  snd (util_GetInClusterNamespace outside_cluster_world) = Some ErrNotInCluster /\
  exitCode (main no_flags outside_cluster_world) = 1%Z.
Proof.
  split; [reflexivity |].
  split; [reflexivity |].
  destruct (namespace_discovery_failure_exits no_flags outside_cluster_world eq_refl)
    as [_ H].
  destruct (H ErrNotInCluster eq_refl) as [Hrun _].
  rewrite Hrun. reflexivity.
Defined.

(* ===================================================================== *)
(** ** Exit codes *)

(** Whatever single call fails, the process ends with code 1. *)
Lemma every_failing_stage_exits_1 (s : Stage) :
  exitCode (main no_flags (world_failing_at s)) = 1%Z.
Proof. destruct s; reflexivity. Qed.

(** Once [flag.Parse] has accepted the command line: every failed call
    [main] gives up on leads to code 1, and the code is 0 exactly when the
    manager ran and returned without error. *)
Lemma main_exit_codes :
  forall (cl : CommandLine) (w : World),
    (forall ns e,
        In (EvGetInClusterNamespace ns (Some e)) (events (main cl w)) ->
        exitCode (main cl w) = 1%Z) /\
    (forall cfg opts e,
        In (EvNewManager cfg opts (Some e)) (events (main cl w)) ->
        exitCode (main cl w) = 1%Z) /\
    (forall r e,
        In (EvIssuerSetup r (Some e)) (events (main cl w)) ->
        exitCode (main cl w) = 1%Z) /\
    (forall r e,
        In (EvCertificateRequestSetup r (Some e)) (events (main cl w)) ->
        exitCode (main cl w) = 1%Z) /\
    (forall name check e,
        In (EvAddHealthzCheck name check (Some e)) (events (main cl w)) ->
        exitCode (main cl w) = 1%Z) /\
    (forall name check e,
        In (EvAddReadyzCheck name check (Some e)) (events (main cl w)) ->
        exitCode (main cl w) = 1%Z) /\
    (forall e,
        In (EvStart (Some e)) (events (main cl w)) ->
        exitCode (main cl w) = 1%Z) /\
    (exitCode (main cl w) = 0%Z <-> In (EvStart None) (events (main cl w))).
Proof.
  intros cl w. main_paths.
  all: repeat split.
  all: try (intros; match goal with H : In _ _ |- _ => in_log H end; reflexivity).
  all: try discriminate.
  all: try (intros _; cbn [In]; tauto).
Qed.

(** [-h] ends the process with code 0 although no manager ever ran: a
    code of 0 does not tell a graceful shutdown. *)
Lemma help_exits_0_without_shutdown :
  ~ (exitCode (process HelpRequested healthy_world) = 0%Z ->
     In (EvStart None) (events (process HelpRequested healthy_world))).
Proof.
  intros H. exact (H eq_refl).
Qed.

(** C4: a process whose log holds a failed namespace discovery, a failed
    manager construction, a failed registration of an issuer reconciler
    (Issuer or ClusterIssuer) or of the CertificateRequest reconciler, a
    failed health or ready check registration, or a failed manager run ends
    with code 1; the code is 0 exactly when the manager ran and returned
    without error, or when [flag.Parse] ended the process on [-h] or
    [-help]. *)
Theorem process_exit_codes :
  forall (inv : Invocation) (w : World),
    (forall ns e,
        In (EvGetInClusterNamespace ns (Some e)) (events (process inv w)) ->
        exitCode (process inv w) = 1%Z) /\
    (forall cfg opts e,
        In (EvNewManager cfg opts (Some e)) (events (process inv w)) ->
        exitCode (process inv w) = 1%Z) /\
    (forall r e,
        In (EvIssuerSetup r (Some e)) (events (process inv w)) ->
        exitCode (process inv w) = 1%Z) /\
    (forall r e,
        In (EvCertificateRequestSetup r (Some e)) (events (process inv w)) ->
        exitCode (process inv w) = 1%Z) /\
    (forall name check e,
        In (EvAddHealthzCheck name check (Some e)) (events (process inv w)) ->
        exitCode (process inv w) = 1%Z) /\
    (forall name check e,
        In (EvAddReadyzCheck name check (Some e)) (events (process inv w)) ->
        exitCode (process inv w) = 1%Z) /\
    (forall e,
        In (EvStart (Some e)) (events (process inv w)) ->
        exitCode (process inv w) = 1%Z) /\
    (exitCode (process inv w) = 0%Z <->
     In (EvStart None) (events (process inv w)) \/ inv = HelpRequested).
Proof.
  intros inv w. destruct inv as [cl | | reason]; cbn [process events exitCode].
  - destruct (main_exit_codes cl w) as (H1 & H2 & H3 & H4 & H5 & H6 & H7 & H8).
    repeat (split; [assumption |]).
    split.
    + intros H. left. apply H8. exact H.
    + intros [H | H]; [apply H8; exact H | discriminate H].
  - repeat (split; [intros; contradiction |]).
    split; [intros _; right; reflexivity | reflexivity].
  - repeat (split; [intros; contradiction |]).
    split; [discriminate | intros [H | H]; [contradiction | discriminate H]].
Qed.

Lemma process_exit_codes_witness :
  In (EvIssuerSetup
        (issuerReconciler "ClusterIssuer" (flag_Parse no_flags)
           "command-issuer-system" (Some 1%nat) sample_manager)
        (Some (errors_New "refused")))
     (events (process (Accepted no_flags) (world_failing_at AtClusterIssuer))) /\
  exitCode (process (Accepted no_flags) (world_failing_at AtClusterIssuer)) = 1%Z.
Proof.
  assert (Hin :
    In (EvIssuerSetup
          (issuerReconciler "ClusterIssuer" (flag_Parse no_flags)
             "command-issuer-system" (Some 1%nat) sample_manager)
          (Some (errors_New "refused")))
       (events (process (Accepted no_flags) (world_failing_at AtClusterIssuer)))).
  { vm_compute. tauto. }
  split; [exact Hin |].
  destruct (process_exit_codes (Accepted no_flags) (world_failing_at AtClusterIssuer))
    as (_ & _ & H & _).
  exact (H _ _ Hin).
Defined.

(* ===================================================================== *)
(** ** What the flags become *)

(** C5: the CertificateRequest reconciler that [main] registers has
    [CheckApprovedCondition] equal to the negation of the
    [disable-approved-check] variable; the variable is [false] when the flag
    is absent, so the approval gate is on exactly when the flag is absent
    or given as false. *)
Theorem approval_check_negates_flag :
  forall (cl : CommandLine) (w : World)
         (r : CertificateRequestReconciler.t) (err : option error),
    In (EvCertificateRequestSetup r err) (events (main cl w)) ->
    CertificateRequestReconciler.CheckApprovedCondition r =
      negb (disableApprovedCheck (flag_Parse cl)) /\
    (arg_disable_approved_check cl = None ->
     disableApprovedCheck (flag_Parse cl) = false) /\
    (CertificateRequestReconciler.CheckApprovedCondition r = true <->
     arg_disable_approved_check cl = None \/
     arg_disable_approved_check cl = Some false).
Proof.
  intros cl w r err. main_paths.
  all: intros H; in_log H.
  all: cbn [certificateRequestReconciler
              CertificateRequestReconciler.CheckApprovedCondition
              flag_Parse disableApprovedCheck].
  all: destruct (arg_disable_approved_check cl) as [[|]|]; cbn [flag_BoolVar negb].
  all: repeat split; try reflexivity; try discriminate; intros; auto.
  all: match goal with H : _ \/ _ |- _ => destruct H; discriminate end.
Qed.

Lemma approval_check_negates_flag_witness :
  In (EvCertificateRequestSetup
        (certificateRequestReconciler (flag_Parse no_flags)
           "command-issuer-system" (Some 1%nat) sample_manager) None)
     (events (main no_flags healthy_world)) /\
  CertificateRequestReconciler.CheckApprovedCondition
    (certificateRequestReconciler (flag_Parse no_flags)
       "command-issuer-system" (Some 1%nat) sample_manager) = true.
Proof.
  assert (Hin :
    In (EvCertificateRequestSetup
          (certificateRequestReconciler (flag_Parse no_flags)
             "command-issuer-system" (Some 1%nat) sample_manager) None)
       (events (main no_flags healthy_world))).
  { vm_compute. tauto. }
  split; [exact Hin |].
  destruct (approval_check_negates_flag no_flags healthy_world _ _ Hin) as (H & _ & _).
  rewrite H. reflexivity.
Defined.

(** The scope every registered reconciler carries. *)
Lemma registered_scope (cl : CommandLine) (w : World) :
  forall (ev : Event) (sc : string * bool),
    In ev (events (main cl w)) -> scope_of ev = Some sc ->
    sc = (resolvedNamespace cl w,
          secretAccessGrantedAtClusterLevel (flag_Parse cl)).
Proof.
  intros e s. unfold resolvedNamespace. main_paths.
  all: intros H Hs; cbn [In] in H.
  all: repeat (destruct H as [H | H]); try contradiction.
  all: subst e; cbn [scope_of] in Hs; try discriminate Hs.
  all: injection Hs as <-.
  all: cbn [fst issuerReconciler certificateRequestReconciler flag_Parse
            secretAccessGrantedAtClusterLevel clusterResourceNamespace
            IssuerReconciler.ClusterResourceNamespace
            IssuerReconciler.SecretAccessGrantedAtClusterLevel
            CertificateRequestReconciler.ClusterResourceNamespace
            CertificateRequestReconciler.SecretAccessGrantedAtClusterLevel] in *.
  all: congruence.
Qed.

(** C6: every reconciler [main] registers, of either type, is given the
    same secret-access scope: the resolved cluster resource namespace and
    the value of the [secret-access-granted-at-cluster-level] variable, so
    any two of them agree.  And they are registered: once the namespace is
    resolved and the manager constructed, the Issuer reconciler is
    registered with that scope; if that succeeds, the ClusterIssuer
    reconciler with the same scope; and if that succeeds, the
    CertificateRequest reconciler with the same scope. *)
Theorem secret_scope_is_process_wide :
  forall (cl : CommandLine) (w : World),
    (forall (ev ev' : Event) (sc sc' : string * bool),
        In ev (events (main cl w)) -> scope_of ev = Some sc ->
        In ev' (events (main cl w)) -> scope_of ev' = Some sc' ->
        sc = (resolvedNamespace cl w,
              match arg_secret_access_granted_at_cluster_level cl with
              | Some v => v
              | None => false
              end) /\
        sc' = sc) /\
    (forall (cfg : RestConfig) (mgr : ctrl.Manager),
        clusterResourceNamespace (flag_Parse cl) <> "" \/
        snd (util_GetInClusterNamespace w) = None ->
        ctrl_GetConfigOrDie w = Some cfg ->
        ctrl_NewManager w cfg (managerOptions (flag_Parse cl)) = (mgr, None) ->
        exists ri : IssuerReconciler.t,
          In (EvIssuerSetup ri (Issuer_SetupWithManager w ri mgr))
             (events (main cl w)) /\
          IssuerReconciler.Kind ri = "Issuer" /\
          scope_of (EvIssuerSetup ri (Issuer_SetupWithManager w ri mgr)) =
            Some (resolvedNamespace cl w,
                  secretAccessGrantedAtClusterLevel (flag_Parse cl)) /\
          (Issuer_SetupWithManager w ri mgr = None ->
           exists rc : IssuerReconciler.t,
             In (EvIssuerSetup rc (Issuer_SetupWithManager w rc mgr))
                (events (main cl w)) /\
             IssuerReconciler.Kind rc = "ClusterIssuer" /\
             scope_of (EvIssuerSetup rc (Issuer_SetupWithManager w rc mgr)) =
               Some (resolvedNamespace cl w,
                     secretAccessGrantedAtClusterLevel (flag_Parse cl)) /\
             (Issuer_SetupWithManager w rc mgr = None ->
              exists rq : CertificateRequestReconciler.t,
                In (EvCertificateRequestSetup rq
                      (CertificateRequest_SetupWithManager w rq mgr))
                   (events (main cl w)) /\
                scope_of (EvCertificateRequestSetup rq
                            (CertificateRequest_SetupWithManager w rq mgr)) =
                  Some (resolvedNamespace cl w,
                        secretAccessGrantedAtClusterLevel (flag_Parse cl))))).
Proof.
  intros cl w. split.
  - intros ev ev' sc sc' H1 S1 H2 S2.
    rewrite (registered_scope cl w _ _ H1 S1), (registered_scope cl w _ _ H2 S2).
    split; reflexivity.
  - intros cfg mgr. unfold resolvedNamespace. main_paths.
    all: cbn [fst snd]; intros Hns Hcfg Hmgr.
    all: try discriminate Hcfg.
    all: try solve
           [ exfalso; destruct Hns as [Hns | Hns];
             [ apply Hns; apply String.eqb_eq; assumption | discriminate Hns ] ].
    all: injection Hcfg as ->.
    all: match goal with
         | E : ctrl_NewManager _ _ _ = (_, _) |- _ =>
             rewrite E in Hmgr; try discriminate Hmgr; injection Hmgr as ->
         end.
    all: match goal with
         | |- context [EvNewManager _ _ _ :: EvIssuerSetup ?ri _ :: _] => exists ri
         end.
    all: repeat match goal with
           | E : Issuer_SetupWithManager _ _ _ = _ |- _ => progress rewrite E
           end.
    all: cbn [flag_Parse secretAccessGrantedAtClusterLevel clusterResourceNamespace]
           in *.
    all: split; [cbn [In]; tauto |].
    all: split; [reflexivity |].
    all: split; [cbn; congruence |].
    all: intros Hok; try discriminate Hok; clear Hok.
    all: match goal with
         | |- context [EvIssuerSetup _ None :: EvIssuerSetup ?rc _ :: _] => exists rc
         end.
    all: repeat match goal with
           | E : Issuer_SetupWithManager _ _ _ = _ |- _ => progress rewrite E
           end.
    all: split; [cbn [In]; tauto |].
    all: split; [reflexivity |].
    all: split; [cbn; congruence |].
    all: intros Hok; try discriminate Hok; clear Hok.
    all: match goal with
         | |- context [EvCertificateRequestSetup ?rq _ :: _] => exists rq
         end.
    all: repeat match goal with
           | E : CertificateRequest_SetupWithManager _ _ _ = _ |- _ =>
               progress rewrite E
           end.
    all: split; [cbn [In]; tauto | cbn; congruence].
Qed.

Lemma secret_scope_is_process_wide_witness :
  snd (util_GetInClusterNamespace healthy_world) = None /\
  ctrl_GetConfigOrDie healthy_world = Some (restConfig 1) /\
  ctrl_NewManager healthy_world (restConfig 1) (managerOptions (flag_Parse no_flags))
    = (sample_manager, None) /\
  exists ri : IssuerReconciler.t,
    In (EvIssuerSetup ri (Issuer_SetupWithManager healthy_world ri sample_manager))
       (events (main no_flags healthy_world)) /\
    IssuerReconciler.Kind ri = "Issuer" /\
    scope_of (EvIssuerSetup ri (Issuer_SetupWithManager healthy_world ri sample_manager))
      = Some ("command-issuer-system", false).
Proof.
  split; [reflexivity |]. split; [reflexivity |]. split; [reflexivity |].
  destruct (proj2 (secret_scope_is_process_wide no_flags healthy_world)
              (restConfig 1) sample_manager (or_intror eq_refl) eq_refl eq_refl)
    as (ri & Hin & Hkind & Hscope & _).
  exists ri. split; [exact Hin |]. split; [exact Hkind | exact Hscope].
Defined.

(** C7: without the flags the metrics address is [":8080"] and the probe
    address is [":8081"]; the options [main] gives to the manager carry the
    given value of each flag, or that default, as the metrics server's
    bind address and as the health probe bind address. *)
Theorem bind_addresses_reach_manager :
  metricsAddr (flag_Parse no_flags) = ":8080" /\
  probeAddr (flag_Parse no_flags) = ":8081" /\
  forall (cl : CommandLine) (w : World)
         (cfg : RestConfig) (opts : ctrl.Options) (err : option error),
    In (EvNewManager cfg opts err) (events (main cl w)) ->
    metricsserver.BindAddress (ctrl.Metrics opts) =
      match arg_metrics_bind_address cl with
      | Some addr => addr
      | None => ":8080"
      end /\
    ctrl.HealthProbeBindAddress opts =
      match arg_health_probe_bind_address cl with
      | Some addr => addr
      | None => ":8081"
      end.
Proof.
  split; [reflexivity |]. split; [reflexivity |].
  intros cl w cfg opts err. main_paths.
  all: intros H; in_log H.
  all: cbn [managerOptions ctrl.Metrics ctrl.HealthProbeBindAddress
            metricsserver.BindAddress flag_Parse metricsAddr probeAddr].
  all: repeat match goal with
         | E : arg_metrics_bind_address _ = _ |- _ => rewrite E; clear E
         | E : arg_health_probe_bind_address _ = _ |- _ => rewrite E; clear E
         end.
  all: split; reflexivity.
Qed.

Lemma bind_addresses_reach_manager_witness :
  In (EvNewManager (restConfig 1) (managerOptions (flag_Parse no_flags)) None)
     (events (main no_flags healthy_world)) /\
  metricsserver.BindAddress (ctrl.Metrics (managerOptions (flag_Parse no_flags)))
    = ":8080" /\
  ctrl.HealthProbeBindAddress (managerOptions (flag_Parse no_flags)) = ":8081".
Proof.
  assert (Hin :
    In (EvNewManager (restConfig 1) (managerOptions (flag_Parse no_flags)) None)
       (events (main no_flags healthy_world))).
  { vm_compute. tauto. }
  split; [exact Hin |].
  destruct bind_addresses_reach_manager as (_ & _ & H).
  exact (H no_flags healthy_world _ _ _ Hin).
Defined.

(* ===================================================================== *)
(** ** Health probes *)

(** C8: the check registered under ["healthz"] and the one under
    ["readyz"] are both [healthz.Ping], which passes for every request and
    depends on nothing; when the manager is started, both registrations
    have succeeded right before, and the manager was not started earlier. *)
Theorem probes_are_ping_registered_before_start :
  (forall req : healthz.Request, healthz.Ping req = None) /\
  forall (cl : CommandLine) (w : World),
    (forall name check err,
        In (EvAddHealthzCheck name check err) (events (main cl w)) ->
        name = "healthz" /\ check = healthz.Ping) /\
    (forall name check err,
        In (EvAddReadyzCheck name check err) (events (main cl w)) ->
        name = "readyz" /\ check = healthz.Ping) /\
    (forall err,
        In (EvStart err) (events (main cl w)) ->
        (exists after : list Event,
            events (main cl w) =
              (before_healthz (events (main cl w)) ++
               [EvAddHealthzCheck "healthz" healthz.Ping None;
                EvAddReadyzCheck "readyz" healthz.Ping None;
                EvLogInfo "starting manager";
                EvStart err] ++ after)%list) /\
        forall err', ~ In (EvStart err') (before_healthz (events (main cl w)))).
Proof.
  split; [reflexivity |].
  intros cl w. main_paths.
  all: repeat split.
  all: try (intros; match goal with H : In _ _ |- _ => in_log H end; reflexivity).
  all: try (intros err' H'; cbn [before_healthz] in H'; in_log H').
  all: match goal with
       | H : In (EvStart _) _ |- exists after, ?l = _ =>
           in_log H; exists (skipn (length (before_healthz l) + 4) l); reflexivity
       end.
Qed.

Lemma probes_are_ping_registered_before_start_witness :
  In (EvStart None) (events (main no_flags healthy_world)) /\
  In (EvAddReadyzCheck "readyz" healthz.Ping None)
     (events (main no_flags healthy_world)).
Proof.
  assert (Hin : In (EvStart None) (events (main no_flags healthy_world))).
  { vm_compute. tauto. }
  split; [exact Hin |].
  destruct probes_are_ping_registered_before_start as [_ H].
  destruct (H no_flags healthy_world) as (_ & _ & Hstart).
  destruct (Hstart None Hin) as [[after Hlog] _].
  rewrite Hlog. apply in_or_app. right. cbn [In app]. tauto.
Defined.

(* ===================================================================== *)
(** ** The config client *)



(* ===================================================================== *)
(** ** The two issuer reconcilers *)

(** C10: any two issuer reconcilers [main] registers agree on [Client],
    [ConfigClient], [Scheme], [ClusterResourceNamespace],
    [SecretAccessGrantedAtClusterLevel] and [HealthCheckerBuilder]; the
    kinds registered are, in order, ["Issuer"] then ["ClusterIssuer"]. *)
Theorem issuer_reconcilers_differ_in_kind_only :
  forall (cl : CommandLine) (w : World)
         (r1 r2 : IssuerReconciler.t) (e1 e2 : option error),
    In (EvIssuerSetup r1 e1) (events (main cl w)) ->
    In (EvIssuerSetup r2 e2) (events (main cl w)) ->
    IssuerReconciler.Client r1 = IssuerReconciler.Client r2 /\
    IssuerReconciler.ConfigClient r1 = IssuerReconciler.ConfigClient r2 /\
    IssuerReconciler.Scheme r1 = IssuerReconciler.Scheme r2 /\
    IssuerReconciler.ClusterResourceNamespace r1 =
      IssuerReconciler.ClusterResourceNamespace r2 /\
    IssuerReconciler.SecretAccessGrantedAtClusterLevel r1 =
      IssuerReconciler.SecretAccessGrantedAtClusterLevel r2 /\
    IssuerReconciler.HealthCheckerBuilder r1 =
      IssuerReconciler.HealthCheckerBuilder r2 /\
    (issuerKinds (events (main cl w)) = ["Issuer"] \/
     issuerKinds (events (main cl w)) = ["Issuer"; "ClusterIssuer"]).
Proof.
  intros cl w r1 r2 e1 e2. main_paths.
  all: intros H1 H2; in_log H1; in_log H2.
  all: cbn [issuerKinds issuerReconciler IssuerReconciler.Kind].
  all: repeat split; try reflexivity.
  all: try (left; reflexivity); try (right; reflexivity).
Qed.

Lemma issuer_reconcilers_differ_in_kind_only_witness :
  IssuerReconciler.Kind
    (issuerReconciler "Issuer" (flag_Parse no_flags)
       "command-issuer-system" (Some 1%nat) sample_manager) = "Issuer" /\
  IssuerReconciler.Kind
    (issuerReconciler "ClusterIssuer" (flag_Parse no_flags)
       "command-issuer-system" (Some 1%nat) sample_manager) = "ClusterIssuer" /\
  IssuerReconciler.Client
    (issuerReconciler "Issuer" (flag_Parse no_flags)
       "command-issuer-system" (Some 1%nat) sample_manager) =
  IssuerReconciler.Client
    (issuerReconciler "ClusterIssuer" (flag_Parse no_flags)
       "command-issuer-system" (Some 1%nat) sample_manager) /\
  issuerKinds (events (main no_flags healthy_world)) = ["Issuer"; "ClusterIssuer"].
Proof.
  assert (H1 :
    In (EvIssuerSetup
          (issuerReconciler "Issuer" (flag_Parse no_flags)
             "command-issuer-system" (Some 1%nat) sample_manager) None)
       (events (main no_flags healthy_world))).
  { vm_compute. tauto. }
  assert (H2 :
    In (EvIssuerSetup
          (issuerReconciler "ClusterIssuer" (flag_Parse no_flags)
             "command-issuer-system" (Some 1%nat) sample_manager) None)
       (events (main no_flags healthy_world))).
  { vm_compute. tauto. }
  destruct (issuer_reconcilers_differ_in_kind_only _ _ _ _ _ _ H1 H2)
    as (Hclient & _).
  split; [reflexivity |]. split; [reflexivity |].
  split; [exact Hclient | reflexivity].
Defined.

(* ===================================================================== *)
(** ** At-most-once issuance *)

Section Issuance.
Import CertificateRequest.

Variable check : bool.

Lemma issued_is_terminal (st : Status) :
  isIssued st = true -> terminal st = true.
Proof.
  unfold isIssued, terminal.
  destruct (Ready st) as [[[| |] []] |]; intros H; try discriminate H; reflexivity.
Qed.

Lemma reconcile_issued (st : Status) (rd : Reads) :
  isIssued st = true -> reconcile check st rd = untouched st.
Proof.
  intros H. unfold reconcile. rewrite (issued_is_terminal st H). reflexivity.
Qed.

(** A pass that issues leaves [Ready=True, reason=Issued] and the
    certificate the Signer returned. *)
Lemma issuedIn_after (st : Status) (rd : Reads) :
  issuedIn (reconcile check st rd) = true ->
  isIssued (after (reconcile check st rd)) = true /\
  exists chain authority,
    sign rd = Signed chain authority /\
    certificate (after (reconcile check st rd)) = Some chain.
Proof.
  unfold reconcile, persist, issuedIn.
  destruct (terminal st); [discriminate |].
  destruct check, (approval rd), (issuerReady rd), (secretData rd),
           (sign rd) as [chain authority | |], (writeConflict rd);
    cbn; intros H; try discriminate H.
  all: split; [reflexivity | exists chain, authority; split; reflexivity].
Qed.

Lemma reconciles_issued (st : Status) (rds : list Reads) :
  isIssued st = true ->
  Forall (fun p => p = untouched st) (reconciles check st rds) /\
  issuances (reconciles check st rds) = 0.
Proof.
  intros H. induction rds as [| rd rest IH]; cbn [reconciles].
  - split; [constructor | reflexivity].
  - rewrite (reconcile_issued st rd H). cbn [after untouched].
    destruct IH as [IHall IHcount]. split.
    + constructor; [reflexivity | exact IHall].
    + unfold issuances in *. cbn. exact IHcount.
Qed.

Lemma issuances_at_most_one (st : Status) (rds : list Reads) :
  issuances (reconciles check st rds) <= 1.
Proof.
  revert st. induction rds as [| rd rest IH]; intros st; cbn [reconciles].
  - unfold issuances. cbn. lia.
  - unfold issuances. cbn [filter].
    destruct (issuedIn (reconcile check st rd)) eqn:E.
    + destruct (issuedIn_after st rd E) as [Hissued _].
      destruct (reconciles_issued _ rest Hissued) as [_ Hzero].
      unfold issuances in Hzero. cbn [length]. lia.
    + exact (IH _).
Qed.

End Issuance.

(** The Signer can succeed twice for one request when the first status
    write is lost to a conflict; one certificate is written all the same. *)
Example conflict_then_issue :
  map CertificateRequest.signerCalled
    (CertificateRequest.reconciles true CertificateRequest.fresh
       [CertificateRequest.reads_ok true; CertificateRequest.reads_ok false;
        CertificateRequest.reads_ok false])
  = [Some (CertificateRequest.Signed "leaf" "root");
     Some (CertificateRequest.Signed "leaf" "root"); None] /\
  CertificateRequest.issuances
    (CertificateRequest.reconciles true CertificateRequest.fresh
       [CertificateRequest.reads_ok true; CertificateRequest.reads_ok false;
        CertificateRequest.reads_ok false]) = 1.
Proof. split; reflexivity. Qed.

(** C2: over any number of reconcile passes of one CertificateRequest,
    from any status, the passes in which the Signer succeeded and the
    certificate was written number 0 or 1; and from a status with
    [Ready=True, reason=Issued] every later pass leaves the status as it
    is, writes nothing, asks for no requeue and does not invoke the
    Signer. *)
Theorem at_most_once_issuance :
  forall (check : bool) (st : CertificateRequest.Status)
         (rds : list CertificateRequest.Reads),
    (CertificateRequest.issuances (CertificateRequest.reconciles check st rds) = 0 \/
     CertificateRequest.issuances (CertificateRequest.reconciles check st rds) = 1) /\
    (CertificateRequest.isIssued st = true ->
     Forall (fun p =>
               CertificateRequest.after p = st /\
               CertificateRequest.signerCalled p = None /\
               CertificateRequest.wrote p = false /\
               CertificateRequest.requeue p = false)
            (CertificateRequest.reconciles check st rds)).
Proof.
  intros check st rds. split.
  - pose proof (issuances_at_most_one check st rds). lia.
  - intros H. destruct (reconciles_issued check st rds H) as [Hall _].
    eapply Forall_impl; [| exact Hall].
    intros p ->. repeat split; reflexivity.
Qed.

Lemma at_most_once_issuance_witness :
  CertificateRequest.isIssued
    (CertificateRequest.setIssued "leaf" "root" CertificateRequest.fresh) = true /\
  Forall (fun p =>
            CertificateRequest.after p =
              CertificateRequest.setIssued "leaf" "root" CertificateRequest.fresh /\
            CertificateRequest.signerCalled p = None /\
            CertificateRequest.wrote p = false /\
            CertificateRequest.requeue p = false)
         (CertificateRequest.reconciles true
            (CertificateRequest.setIssued "leaf" "root" CertificateRequest.fresh)
            [CertificateRequest.reads_ok false; CertificateRequest.reads_ok true]).
Proof.
  split; [reflexivity |].
  exact (proj2 (at_most_once_issuance true
                  (CertificateRequest.setIssued "leaf" "root" CertificateRequest.fresh)
                  [CertificateRequest.reads_ok false; CertificateRequest.reads_ok true])
               eq_refl).
Defined.

(* ===================================================================== *)
(** ** More on namespace resolution *)

(** X1: with a non-empty [cluster-resource-namespace] the in-cluster
    discovery is never called, and the whole run is the same whatever the
    discovery would have answered. *)
Theorem namespace_flag_skips_discovery :
  forall (cl : CommandLine) (w : World),
    clusterResourceNamespace (flag_Parse cl) <> "" ->
    (forall ns err,
        ~ In (EvGetInClusterNamespace ns err) (events (main cl w))) /\
    (forall r : string * option error,
        main cl (with_GetInClusterNamespace r w) = main cl w).
Proof.
  intros cl w Hflag. apply String.eqb_neq in Hflag. split.
  - intros ns err. unfold_main. rewrite Hflag.
    repeat (cbn [app events exitCode]; next_branch).
    all: cbn [app events exitCode]; intros H; in_log H.
  - intros r. unfold_main.
    cbn [with_GetInClusterNamespace util_GetInClusterNamespace util_NewConfigClient
         ctrl_GetConfigOrDie ctrl_NewManager Issuer_SetupWithManager
         CertificateRequest_SetupWithManager mgr_AddHealthzCheck
         mgr_AddReadyzCheck mgr_Start].
    rewrite Hflag. reflexivity.
Qed.

Lemma namespace_flag_skips_discovery_witness :
  clusterResourceNamespace
    (flag_Parse (with_namespace_flag (Some "pki") no_flags)) <> "" /\
  exitCode (main (with_namespace_flag (Some "pki") no_flags) outside_cluster_world)
  = 0%Z.
Proof.
  assert (Hflag : clusterResourceNamespace
                    (flag_Parse (with_namespace_flag (Some "pki") no_flags)) <> "").
  { cbn. discriminate. }
  split; [exact Hflag |].
  destruct (namespace_flag_skips_discovery _ healthy_world Hflag) as [_ Hsame].
  unfold outside_cluster_world. rewrite Hsame. reflexivity.
Defined.

(** X2: giving the flag with an empty value is the same as leaving it out:
    both starts behave alike in every cluster. *)
Theorem empty_namespace_flag_is_unset :
  forall (cl : CommandLine) (w : World),
    main (with_namespace_flag (Some "") cl) w =
    main (with_namespace_flag None cl) w.
Proof. intros cl w. apply main_flags. reflexivity. Qed.

(* ===================================================================== *)
(** ** The manager's options *)

(** X3: the manager is constructed from the config [ctrl.GetConfigOrDie]
    returned, with the package scheme, leader election as the
    [leader-elect] flag says (off without the flag) under the identity
    ["b68cef20.keyfactor.com"], and a webhook server on port 9443. *)
Theorem manager_options_of_every_start :
  forall (cl : CommandLine) (w : World)
         (cfg : RestConfig) (opts : ctrl.Options) (err : option error),
    In (EvNewManager cfg opts err) (events (main cl w)) ->
    ctrl_GetConfigOrDie w = Some cfg /\
    ctrl.Scheme opts = scheme /\
    ctrl.LeaderElection opts =
      match arg_leader_elect cl with Some b => b | None => false end /\
    ctrl.LeaderElectionID opts = "b68cef20.keyfactor.com" /\
    ctrl.WebhookServer opts =
      webhookserver.NewServer {| webhookserver.Port := 9443 |} /\
    err = snd (ctrl_NewManager w cfg opts).
Proof.
  intros cl w cfg opts err. main_paths.
  all: intros H; in_log H.
  all: repeat match goal with
         | E : ctrl_NewManager _ _ _ = _ |- _ => rewrite E; clear E
         | E : arg_leader_elect _ = _ |- _ => rewrite E; clear E
         end.
  all: cbn [snd managerOptions ctrl.Scheme ctrl.LeaderElection ctrl.LeaderElectionID
            ctrl.WebhookServer flag_Parse enableLeaderElection flag_BoolVar].
  all: repeat match goal with
         | E : arg_leader_elect _ = _ |- _ => rewrite E; clear E
         end.
  all: repeat split; reflexivity.
Qed.

Lemma manager_options_of_every_start_witness :
  In (EvNewManager (restConfig 1) (managerOptions (flag_Parse no_flags)) None)
     (events (main no_flags healthy_world)) /\
  ctrl.LeaderElection (managerOptions (flag_Parse no_flags)) = false.
Proof.
  assert (Hin :
    In (EvNewManager (restConfig 1) (managerOptions (flag_Parse no_flags)) None)
       (events (main no_flags healthy_world))).
  { vm_compute. tauto. }
  split; [exact Hin |].
  destruct (manager_options_of_every_start _ _ _ _ _ Hin) as (_ & _ & H & _).
  exact H.
Defined.

(* ===================================================================== *)
(** ** More on exit codes and the error log *)




(** X5: a start that ends with code 1 stops right after the call that
    failed: its log ends with that call and one error line carrying the
    very error the call returned, or with [ctrl.GetConfigOrDie] ending the
    process. *)
Theorem exit_1_follows_the_logged_failure :
  forall (cl : CommandLine) (w : World),
    exitCode (main cl w) = 1%Z ->
    (exists before : list Event,
        events (main cl w) = (before ++ [EvGetConfigOrDie None])%list) \/
    (exists (before : list Event) (call : Event) (e : error)
            (msg : string) (kv : list string),
        events (main cl w) = (before ++ [call; EvLogError e msg kv])%list /\
        failure_of call = Some e).
Proof.
  intros cl w. main_paths.
  all: intros H; try discriminate H; clear H.
  all: match goal with
       | |- (exists before, ?l = _) \/ _ =>
           first
             [ left; exists (removelast l); reflexivity
             | right; exists (removelast (removelast l));
               eexists; eexists; eexists; eexists;
               split; reflexivity ]
       end.
Qed.

Lemma exit_1_follows_the_logged_failure_witness :
  exitCode (main no_flags (world_stopping_with (errors_New "lease lost"))) = 1%Z /\
  ((exists before : list Event,
       events (main no_flags (world_stopping_with (errors_New "lease lost"))) =
         (before ++ [EvGetConfigOrDie None])%list) \/
   (exists (before : list Event) (call : Event) (e : error)
           (msg : string) (kv : list string),
       events (main no_flags (world_stopping_with (errors_New "lease lost"))) =
         (before ++ [call; EvLogError e msg kv])%list /\
       failure_of call = Some e)).
Proof.
  split; [reflexivity |].
  exact (exit_1_follows_the_logged_failure
           no_flags (world_stopping_with (errors_New "lease lost")) eq_refl).
Defined.

(** X6: a start that ends with code 0 has logged no error other than the
    one of a failed config client construction. *)
Theorem clean_exit_logs_no_fatal_error :
  forall (cl : CommandLine) (w : World) (e : error) (msg : string) (kv : list string),
    exitCode (main cl w) = 0%Z ->
    In (EvLogError e msg kv) (events (main cl w)) ->
    msg = "error creating config client" /\
    kv = [] /\
    snd (util_NewConfigClient w) = Some e.
Proof.
  intros cl w e msg kv. main_paths.
  all: intros Hexit; try discriminate Hexit; clear Hexit.
  all: intros H; in_log H.
  all: repeat match goal with
         | E : util_NewConfigClient _ = _ |- _ => rewrite E; clear E
         end.
  all: repeat split; reflexivity.
Qed.

Lemma clean_exit_logs_no_fatal_error_witness :
  exitCode (main no_flags
              (with_NewConfigClient (None, Some (errors_New "no clientset"))
                 healthy_world)) = 0%Z /\
  In (EvLogError (errors_New "no clientset") "error creating config client" [])
     (events (main no_flags
                (with_NewConfigClient (None, Some (errors_New "no clientset"))
                   healthy_world))) /\
  snd (util_NewConfigClient
         (with_NewConfigClient (None, Some (errors_New "no clientset")) healthy_world))
  = Some (errors_New "no clientset").
Proof.
  assert (Hin :
    In (EvLogError (errors_New "no clientset") "error creating config client" [])
       (events (main no_flags
                  (with_NewConfigClient (None, Some (errors_New "no clientset"))
                     healthy_world)))).
  { vm_compute. tauto. }
  split; [reflexivity |]. split; [exact Hin |].
  destruct (clean_exit_logs_no_fatal_error
              no_flags
              (with_NewConfigClient (None, Some (errors_New "no clientset"))
                 healthy_world)
              _ _ _ eq_refl Hin) as (_ & _ & H).
  exact H.
Defined.

(** Once [flag.Parse] has accepted the command line, the calls in the log
    are an initial part of [call_sequence], and all of it on code 0. *)
Lemma main_calls_follow_one_sequence :
  forall (cl : CommandLine) (w : World),
    (exists n : nat,
        calls (events (main cl w)) =
        firstn n (call_sequence
                    (String.eqb (clusterResourceNamespace (flag_Parse cl)) ""))) /\
    (exitCode (main cl w) = 0%Z ->
     calls (events (main cl w)) =
     call_sequence (String.eqb (clusterResourceNamespace (flag_Parse cl)) "")).
Proof.
  intros cl w. main_paths.
  all: cbn [calls call_name issuerReconciler IssuerReconciler.Kind].
  all: split;
    [ match goal with
      | |- exists n, ?l = _ => exists (length l); reflexivity
      end
    | intros H; first [discriminate H | reflexivity] ].
Qed.

(** X7: the calls the log records (not the accessors [mgr.GetClient] and
    [mgr.GetScheme], which it does not record) are an initial part of one
    fixed sequence: set the logger, discover the namespace (only with an
    empty flag variable), config client, config, manager, Issuer,
    ClusterIssuer, CertificateRequest, healthz, readyz, start; none of
    them is made twice or out of order.  A process that ends with code 0
    has made them all, unless [flag.Parse] ended it on [-h] or [-help], in
    which case, as on a rejected command line, it has made none. *)
Theorem calls_follow_one_sequence :
  forall (inv : Invocation) (w : World),
    (forall cl : CommandLine,
        inv = Accepted cl ->
        exists n : nat,
          calls (events (process inv w)) =
          firstn n (call_sequence
                      (String.eqb (clusterResourceNamespace (flag_Parse cl)) ""))) /\
    (inv = HelpRequested \/ (exists reason, inv = Rejected reason) ->
     calls (events (process inv w)) = []) /\
    (exitCode (process inv w) = 0%Z ->
     inv = HelpRequested \/
     exists cl : CommandLine,
       inv = Accepted cl /\
       calls (events (process inv w)) =
       call_sequence (String.eqb (clusterResourceNamespace (flag_Parse cl)) "")).
Proof.
  intros inv w. destruct inv as [cl | | reason]; cbn [process events exitCode calls].
  - destruct (main_calls_follow_one_sequence cl w) as [Hprefix Hall].
    split; [| split].
    + intros cl' H. injection H as <-. exact Hprefix.
    + intros [H | [reason H]]; discriminate H.
    + intros H. right. exists cl. split; [reflexivity | exact (Hall H)].
  - split; [| split].
    + intros cl H; discriminate H.
    + reflexivity.
    + intros _. left. reflexivity.
  - split; [| split].
    + intros cl H; discriminate H.
    + reflexivity.
    + discriminate.
Qed.

Lemma calls_follow_one_sequence_witness :
  exitCode (process (Accepted no_flags) healthy_world) = 0%Z /\
  calls (events (process (Accepted no_flags) healthy_world)) = call_sequence true /\
  calls (events (process HelpRequested healthy_world)) = [].
Proof.
  split; [reflexivity |].
  destruct (calls_follow_one_sequence (Accepted no_flags) healthy_world)
    as (_ & _ & Hall).
  destruct (calls_follow_one_sequence HelpRequested healthy_world)
    as (_ & Hnone & _).
  split.
  - destruct (Hall eq_refl) as [H | (cl & Hcl & Hcalls)]; [discriminate H |].
    injection Hcl as <-. exact Hcalls.
  - exact (Hnone (or_introl eq_refl)).
Defined.

(* ===================================================================== *)
(** ** The reconcilers and the manager *)

(** X8: whenever the manager is started, the log up to there ends with the
    successful registrations of the Issuer, the ClusterIssuer and the
    CertificateRequest reconcilers, in that order, followed by the two
    successful check registrations; the manager has not been started
    before. *)
Theorem start_needs_all_three_controllers :
  forall (cl : CommandLine) (w : World) (err : option error),
    In (EvStart err) (events (main cl w)) ->
    exists (before after : list Event)
           (ri rc : IssuerReconciler.t) (rq : CertificateRequestReconciler.t),
      events (main cl w) =
        (before ++
         [EvIssuerSetup ri None;
          EvIssuerSetup rc None;
          EvCertificateRequestSetup rq None;
          EvAddHealthzCheck "healthz" healthz.Ping None;
          EvAddReadyzCheck "readyz" healthz.Ping None;
          EvLogInfo "starting manager";
          EvStart err] ++ after)%list /\
      IssuerReconciler.Kind ri = "Issuer" /\
      IssuerReconciler.Kind rc = "ClusterIssuer" /\
      (forall err', ~ In (EvStart err') before).
Proof.
  intros cl w err. main_paths.
  all: intros H; in_log H.
  all: match goal with
       | |- exists before after ri rc rq, ?l = _ /\ _ =>
           match l with
           | context [EvIssuerSetup ?ri None :: EvIssuerSetup ?rc None ::
                      EvCertificateRequestSetup ?rq None :: _] =>
               exists (firstn (length (before_healthz l) - 3) l),
                      (skipn (length (before_healthz l) + 4) l),
                      ri, rc, rq
           end
       end.
  all: split; [reflexivity |].
  all: split; [reflexivity |].
  all: split; [reflexivity |].
  all: intros err' H'; cbn [before_healthz length Nat.sub firstn] in H'; in_log H'.
Qed.

Lemma start_needs_all_three_controllers_witness :
  In (EvStart None) (events (main no_flags healthy_world)) /\
  exists (before after : list Event)
         (ri rc : IssuerReconciler.t) (rq : CertificateRequestReconciler.t),
    events (main no_flags healthy_world) =
      (before ++
       [EvIssuerSetup ri None;
        EvIssuerSetup rc None;
        EvCertificateRequestSetup rq None;
        EvAddHealthzCheck "healthz" healthz.Ping None;
        EvAddReadyzCheck "readyz" healthz.Ping None;
        EvLogInfo "starting manager";
        EvStart None] ++ after)%list /\
    IssuerReconciler.Kind ri = "Issuer" /\
    IssuerReconciler.Kind rc = "ClusterIssuer" /\
    (forall err', ~ In (EvStart err') before).
Proof.
  assert (Hin : In (EvStart None) (events (main no_flags healthy_world))).
  { vm_compute. tauto. }
  split; [exact Hin |].
  exact (start_needs_all_three_controllers no_flags healthy_world None Hin).
Defined.

(** X9: the CertificateRequest reconciler is given the client and the
    scheme of the manager that [ctrl.NewManager] returned, the config
    client [util.NewConfigClient] returned, the Command signer builder and
    the real clock; every issuer reconciler registered has the same client,
    scheme and config client. *)
Theorem reconcilers_share_the_manager :
  forall (cl : CommandLine) (w : World)
         (rq : CertificateRequestReconciler.t) (eq : option error),
    In (EvCertificateRequestSetup rq eq) (events (main cl w)) ->
    exists cfg : RestConfig,
      ctrl_GetConfigOrDie w = Some cfg /\
      CertificateRequestReconciler.Client rq =
        ctrl.GetClient (fst (ctrl_NewManager w cfg (managerOptions (flag_Parse cl)))) /\
      CertificateRequestReconciler.Scheme rq =
        ctrl.GetScheme (fst (ctrl_NewManager w cfg (managerOptions (flag_Parse cl)))) /\
      CertificateRequestReconciler.ConfigClient rq = fst (util_NewConfigClient w) /\
      CertificateRequestReconciler.SignerBuilder rq =
        signer_CommandSignerFromIssuerAndSecretData /\
      CertificateRequestReconciler.Clock rq = RealClock /\
      (forall (ri : IssuerReconciler.t) (ei : option error),
          In (EvIssuerSetup ri ei) (events (main cl w)) ->
          IssuerReconciler.Client ri = CertificateRequestReconciler.Client rq /\
          IssuerReconciler.Scheme ri = CertificateRequestReconciler.Scheme rq /\
          IssuerReconciler.ConfigClient ri =
            CertificateRequestReconciler.ConfigClient rq).
Proof.
  intros cl w rq eq. main_paths.
  all: intros H; in_log H.
  all: match goal with
       | E : ctrl_NewManager _ ?c _ = _ |- _ => exists c; rewrite E
       end.
  all: cbn [fst certificateRequestReconciler
            CertificateRequestReconciler.Client CertificateRequestReconciler.Scheme
            CertificateRequestReconciler.ConfigClient
            CertificateRequestReconciler.SignerBuilder
            CertificateRequestReconciler.Clock].
  all: repeat (split; [reflexivity |]).
  all: intros ri ei Hi; in_log Hi; repeat split; reflexivity.
Qed.

Lemma reconcilers_share_the_manager_witness :
  In (EvCertificateRequestSetup
        (certificateRequestReconciler (flag_Parse no_flags)
           "command-issuer-system" (Some 1%nat) sample_manager) None)
     (events (main no_flags healthy_world)) /\
  CertificateRequestReconciler.Clock
    (certificateRequestReconciler (flag_Parse no_flags)
       "command-issuer-system" (Some 1%nat) sample_manager) = RealClock.
Proof.
  assert (Hin :
    In (EvCertificateRequestSetup
          (certificateRequestReconciler (flag_Parse no_flags)
             "command-issuer-system" (Some 1%nat) sample_manager) None)
       (events (main no_flags healthy_world))).
  { vm_compute. tauto. }
  split; [exact Hin |].
  destruct (reconcilers_share_the_manager _ _ _ _ Hin)
    as (cfg & _ & _ & _ & _ & _ & Hclock & _).
  exact Hclock.
Defined.

(** X10: when the registration of a controller fails, the error line names
    that controller: the kind of the issuer reconciler that failed, or
    ["CertificateRequest"], with the error the registration returned. *)
Theorem failed_controller_is_named_in_the_log :
  forall (cl : CommandLine) (w : World) (e : error),
    (forall r : IssuerReconciler.t,
        In (EvIssuerSetup r (Some e)) (events (main cl w)) ->
        In (EvLogError e "unable to create controller"
              ["controller"; IssuerReconciler.Kind r])
           (events (main cl w))) /\
    (forall r : CertificateRequestReconciler.t,
        In (EvCertificateRequestSetup r (Some e)) (events (main cl w)) ->
        In (EvLogError e "unable to create controller"
              ["controller"; "CertificateRequest"])
           (events (main cl w))).
Proof.
  intros cl w e. main_paths.
  all: split; intros rec Hrec; in_log Hrec.
  all: cbn [In issuerReconciler IssuerReconciler.Kind]; tauto.
Qed.

Lemma failed_controller_is_named_in_the_log_witness :
  In (EvIssuerSetup
        (issuerReconciler "ClusterIssuer" (flag_Parse no_flags)
           "command-issuer-system" (Some 1%nat) sample_manager)
        (Some (errors_New "refused")))
     (events (main no_flags (world_failing_at AtClusterIssuer))) /\
  In (EvLogError (errors_New "refused") "unable to create controller"
        ["controller"; "ClusterIssuer"])
     (events (main no_flags (world_failing_at AtClusterIssuer))).
Proof.
  assert (Hin :
    In (EvIssuerSetup
          (issuerReconciler "ClusterIssuer" (flag_Parse no_flags)
             "command-issuer-system" (Some 1%nat) sample_manager)
          (Some (errors_New "refused")))
       (events (main no_flags (world_failing_at AtClusterIssuer)))).
  { vm_compute. tauto. }
  split; [exact Hin |].
  exact (proj1 (failed_controller_is_named_in_the_log
                  no_flags (world_failing_at AtClusterIssuer) (errors_New "refused"))
               _ Hin).
Defined.

(** X11: once the namespace is resolved (the flag variable is not empty,
    or the discovery returns no error), [main] logs which secret access
    scope is in force: cluster level, or namespace level with the resolved
    namespace in the line.  In every run, whether the namespace is resolved
    or not, an info line in the log is that one or ["starting manager"]. *)
Theorem scope_is_logged :
  forall (cl : CommandLine) (w : World),
    (clusterResourceNamespace (flag_Parse cl) <> "" \/
     snd (util_GetInClusterNamespace w) = None ->
     In (EvLogInfo (scope_message (flag_Parse cl) (resolvedNamespace cl w)))
        (events (main cl w))) /\
    (forall msg : string,
        In (EvLogInfo msg) (events (main cl w)) ->
        msg = scope_message (flag_Parse cl) (resolvedNamespace cl w) \/
        msg = "starting manager").
Proof.
  intros cl w. unfold scope_message, resolvedNamespace. main_paths.
  all: cbn [fst snd].
  all: split;
    [ intros Hns;
      first
        [ cbn [In]; tauto
        | exfalso; destruct Hns as [Hns | Hns];
          [ apply Hns; apply String.eqb_eq; assumption | discriminate Hns ] ]
    | intros msg Hm; in_log Hm; tauto ].
Qed.

Lemma scope_is_logged_witness :
  snd (util_GetInClusterNamespace healthy_world) = None /\
  In (EvLogInfo "expecting secret access at namespace level (command-issuer-system)")
     (events (main no_flags healthy_world)).
Proof.
  split; [reflexivity |].
  exact (proj1 (scope_is_logged no_flags healthy_world) (or_intror eq_refl)).
Defined.

(* ===================================================================== *)
(** ** Package initialisation *)

(** X12: [init] fills the scheme exactly when client-go's and the command
    issuer's [AddToScheme] return without error or panic and
    cert-manager's does not panic; the scheme is then what cert-manager's
    call left, and an error it returns is dropped.  Otherwise [init]
    panics with the first failure in the order of the calls: client-go's
    whatever the others would do, else the command issuer's, else
    cert-manager's panic. *)
Theorem init_drops_cmapi_error :
  forall b : SchemeBuilders,
    let r1 := clientgoscheme_AddToScheme b runtime_NewScheme in
    let r2 := commandissuerv1alpha1_AddToScheme b (scheme_after r1 runtime_NewScheme) in
    let r3 := cmapi_AddToScheme b
                (scheme_after r2 (scheme_after r1 runtime_NewScheme)) in
    (forall e, must_failure r1 = Some e -> init b = Panicked e) /\
    (forall e, must_failure r1 = None -> must_failure r2 = Some e ->
               init b = Panicked e) /\
    (forall v, must_failure r1 = None -> must_failure r2 = None ->
               r3 = Panics v -> init b = Panicked v) /\
    (forall s3 err, must_failure r1 = None -> must_failure r2 = None ->
                    r3 = Added s3 err -> init b = Initialised s3).
Proof.
  intros b. unfold init, utilruntime_Must, discard_error.
  destruct (clientgoscheme_AddToScheme b runtime_NewScheme) as [s1 [e1 |] | v1];
    cbn [must_failure scheme_after].
  - split; [| split; [| split]]; intros; try discriminate.
    match goal with H : Some _ = Some _ |- _ => injection H as <- end. reflexivity.
  - destruct (commandissuerv1alpha1_AddToScheme b s1) as [s2 [e2 |] | v2];
      cbn [must_failure scheme_after].
    + split; [| split; [| split]]; intros; try discriminate.
      match goal with H : Some _ = Some _ |- _ => injection H as <- end. reflexivity.
    + destruct (cmapi_AddToScheme b s2) as [s3 e3 | v3].
      * split; [| split; [| split]]; intros; try discriminate.
        match goal with H : Added _ _ = Added _ _ |- _ => injection H as <- _ end.
        reflexivity.
      * split; [| split; [| split]]; intros; try discriminate.
        match goal with H : Panics _ = Panics _ |- _ => injection H as <- end.
        reflexivity.
    + split; [| split; [| split]]; intros; try discriminate.
      match goal with H : Some _ = Some _ |- _ => injection H as <- end. reflexivity.
  - split; [| split; [| split]]; intros; try discriminate.
    match goal with H : Some _ = Some _ |- _ => injection H as <- end. reflexivity.
Qed.

Lemma init_drops_cmapi_error_witness :
  init cmapi_failing_builders =
    Initialised ["commandissuerv1alpha1"; "clientgoscheme"] /\
  init both_failing_builders = Panicked (errors_New "client-go").
Proof.
  split.
  - exact (proj2 (proj2 (proj2 (init_drops_cmapi_error cmapi_failing_builders)))
             ["commandissuerv1alpha1"; "clientgoscheme"]
             (Some (errors_New "cmapi: already registered"))
             eq_refl eq_refl eq_refl).
  - exact (proj1 (init_drops_cmapi_error both_failing_builders)
             (errors_New "client-go") eq_refl).
Defined.

(** When the three groups register, [init] leaves the scheme that [main]
    hands to the manager. *)
Lemma init_builds_the_manager_scheme :
  init registering_builders = Initialised scheme.
Proof. reflexivity. Qed.

(* ===================================================================== *)
(** ** An empty discovered namespace *)

(** X13: [main] does not check the namespace the discovery returns: when
    the flag variable is empty and the discovery answers the empty
    namespace without error, the start goes on to build the config client
    and every reconciler registered is given the empty namespace. *)
Theorem empty_discovered_namespace_is_accepted :
  forall (cl : CommandLine) (w : World),
    clusterResourceNamespace (flag_Parse cl) = "" ->
    util_GetInClusterNamespace w = ("", None) ->
    In (EvNewConfigClient (fst (util_NewConfigClient w)) (snd (util_NewConfigClient w)))
       (events (main cl w)) /\
    (forall (ev : Event) (sc : string * bool),
        In ev (events (main cl w)) -> scope_of ev = Some sc -> fst sc = "").
Proof.
  intros cl w Hflag Hns. unfold_main. rewrite Hflag, Hns.
  repeat (cbn [app events exitCode String.eqb fst snd]; next_branch).
  all: cbn [app events exitCode fst snd].
  all: split; [cbn [In]; tauto |].
  all: intros ev sc Hev Hsc; cbn [In] in Hev.
  all: repeat (destruct Hev as [Hev | Hev]); try contradiction.
  all: subst ev; cbn [scope_of] in Hsc; try discriminate Hsc.
  all: injection Hsc as <-; reflexivity.
Qed.

Lemma empty_discovered_namespace_is_accepted_witness :
  clusterResourceNamespace (flag_Parse no_flags) = "" /\
  util_GetInClusterNamespace (with_GetInClusterNamespace ("", None) healthy_world)
    = ("", None) /\
  In (EvNewConfigClient (Some 1%nat) None)
     (events (main no_flags (with_GetInClusterNamespace ("", None) healthy_world))).
Proof.
  split; [reflexivity |]. split; [reflexivity |].
  exact (proj1 (empty_discovered_namespace_is_accepted
                  no_flags (with_GetInClusterNamespace ("", None) healthy_world)
                  eq_refl eq_refl)).
Defined.
